(** * binhtran.com: the post preview card and the tutorial movies reducer

    Two source files are covered.

    - [src/components/post-preview.js]: the [PostPreview] component, a
      function from a props object to a React element.  Its argument is a
      JavaScript object, so it is embedded over an explicit object store:
      property reads may raise [TypeError], and the store is threaded
      through so that the absence of writes is a statement, not a
      convention.
    - [content/blog/2020-first-post/2020-first-post.mdx]: the front matter
      of the post, and the final [moviesReducer] / [addMovie] listing of the
      tutorial (the block headed "addMovie method"); further on, the
      reducer of the earlier listing ("markWatchedMovie method") and the
      form handlers of the [NewMovie] component. *)

From stdpp Require Import gmap strings list.

Open Scope string_scope.

(** ** JavaScript values and the object store *)

Module JS.

Definition loc := positive.

(** Primitive values and references to objects.  Numbers are integers
    here: no claim depends on fractional values. *)
Inductive value :=
| VUndefined
| VNull
| VBool (b : bool)
| VNum (n : Z)
| VStr (s : string)
| VRef (l : loc).
Arguments VRef l%_positive.

#[global] Instance value_eq_dec : EqDecision value.
Proof. solve_decision. Defined.

#[global] Instance value_inhabited : Inhabited value := populate VUndefined.

(** An object is a finite map from property names to values; the store
    maps locations to objects.  A location the store does not list reads
    as an object without properties. *)
Abbreviation object := (gmap string value).
Abbreviation heap := (gmap loc object).

Inductive error :=
| TypeError
| Error (message : string).

Inductive result (A : Type) :=
| Ok (a : A)
| Throw (e : error).
Arguments Ok {A} a.
Arguments Throw {A} e.

Definition nullish (v : value) : bool :=
  match v with
  | VUndefined | VNull => true
  | _ => false
  end.

(** [v.k]: a [TypeError] on [undefined] and [null], the own property of
    an object (or [undefined] when it has none of that name), and
    [undefined] on the other primitives, none of whose prototypes defines
    a property the code below asks for. *)
Definition lookup_prop (h : heap) (v : value) (k : string) : result value :=
  match v with
  | VUndefined | VNull => Throw TypeError
  | VRef l => Ok (default VUndefined ((h !!! l) !! k))
  | VBool _ | VNum _ | VStr _ => Ok VUndefined
  end.

(** A computation runs against a store and yields the store it leaves,
    the property reads it made, in order, and a value or a thrown
    error. *)
Definition access := (value * string)%type.

Record outcome (A : Type) := Outcome {
  out_heap : heap;
  out_reads : list access;
  out_result : result A
}.
Arguments Outcome {A} _ _ _.
Arguments out_heap {A} _.
Arguments out_reads {A} _.
Arguments out_result {A} _.

Definition M (A : Type) := heap -> outcome A.

Definition ret {A} (a : A) : M A := fun h => Outcome h [] (Ok a).

Definition bind {A B} (m : M A) (f : A -> M B) : M B :=
  fun h =>
    let o := m h in
    match out_result o with
    | Throw e => Outcome (out_heap o) (out_reads o) (Throw e)
    | Ok a =>
        let o' := f a (out_heap o) in
        Outcome (out_heap o') (out_reads o ++ out_reads o') (out_result o')
    end.

Definition get_prop (v : value) (k : string) : M value :=
  fun h => Outcome h [(v, k)] (lookup_prop h v k).

End JS.

Import JS.

Notation "'do' x <- m ; f" := (bind m (fun x => f))
  (at level 10, x name, m at level 100, f at level 200,
   format "'[v' 'do'  x  <-  m ; '/' f ']'").
Notation "v .[ k ]" := (get_prop v k) (at level 1, format "v .[ k ]").

(** ** React elements *)

Inductive element_type :=
| Tag (name : string)   (* a host element: [<article>], [<h3>], [<p>] *)
| Link                  (* [Link] of gatsby *)
| Image.                (* the default export of gatsby-image *)

Inductive prop_value :=
| PValue (v : value)          (* [name={expression}] *)
| PCss (styles : string).     (* [css={css`...`}] of @emotion/core *)

#[warnings="-register-all"]
Inductive node :=
| Element (type : element_type) (props : list (string * prop_value))
          (children : list node)
| Expr (v : value).           (* a [{expression}] child *)

Definition is_link (n : node) : bool :=
  match n with
  | Element Link _ _ => true
  | _ => false
  end.

(** Every [Link] element of a tree, in document order. *)
Fixpoint links (n : node) : list node :=
  match n with
  | Element _ _ children =>
      (if is_link n then [n] else []) ++ flat_map links children
  | Expr _ => []
  end.

Definition prop (name : string) (n : node) : option prop_value :=
  match n with
  | Element _ props _ => snd <$> List.find (fun p => String.eqb (fst p) name) props
  | Expr _ => None
  end.

Definition children_of (n : node) : list node :=
  match n with
  | Element _ _ children => children
  | Expr _ => []
  end.

(** ** The component: [src/components/post-preview.js] *)

Definition article_css : string :=
"
      border-bottom: 1px solid #ddd;
      margin-top: 0.75rem;
      padding-bottom: 1rem;
      :first-of-type {
        margin-top: 1rem;
      }
    ".

Definition link_css : string :=
"
        margin: 1rem 1rem 0 0;
        width: 100px;
      ".

(** [const PostPreview = ({ post }) => ( <article ...> ... </article> )].
    The attribute and child expressions are evaluated in source order. *)
Definition PostPreview (props : value) : M node :=
  do post <- props.["post"];
  do slug1 <- post.["slug"];
  do title1 <- post.["title"];
  do image <- post.["image"];
  do sharp <- image.["sharp"];
  do fluid <- sharp.["fluid"];
  do slug2 <- post.["slug"];
  do title2 <- post.["title"];
  do excerpt <- post.["excerpt"];
  ret (Element (Tag "article") [("css", PCss article_css)]
        [ Element Link [("to", PValue slug1); ("css", PCss link_css)]
            [ Element Image [("alt", PValue title1); ("fluid", PValue fluid)] [] ];
          Element (Tag "h3") []
            [ Element Link [("to", PValue slug2)] [ Expr title2 ] ];
          Element (Tag "p") [] [ Expr excerpt ] ]).

(** ** Post Summaries *)

(** The value a read of [v.k] yields in store [h] ([undefined] where the
    read would throw). *)
Definition field (h : heap) (v : value) (k : string) : value :=
  match lookup_prop h v k with
  | Ok x => x
  | Throw _ => VUndefined
  end.

(** [v] is an object with an own property [k]. *)
Definition has_own (h : heap) (v : value) (k : string) : bool :=
  match v with
  | VRef l => bool_decide (is_Some ((h !!! l) !! k))
  | _ => false
  end.

(** The input contract as the specification words it: an object with the
    fields [slug], [title], [excerpt] and [image]. *)
Definition provides_contract_fields (h : heap) (post : value) : bool :=
  has_own h post "slug" && has_own h post "title" &&
  has_own h post "excerpt" && has_own h post "image".

(** What the component needs on top of that: [post.image.sharp] is neither
    [undefined] nor [null], so that [.fluid] can be read from it. *)
Definition valid_post_summary (h : heap) (post : value) : bool :=
  provides_contract_fields h post &&
  negb (nullish (field h (field h post "image") "sharp")).

(** The element the component describes for given field values. *)
Definition preview (slug title excerpt fluid : value) : node :=
  Element (Tag "article") [("css", PCss article_css)]
    [ Element Link [("to", PValue slug); ("css", PCss link_css)]
        [ Element Image [("alt", PValue title); ("fluid", PValue fluid)] [] ];
      Element (Tag "h3") []
        [ Element Link [("to", PValue slug)] [ Expr title ] ];
      Element (Tag "p") [] [ Expr excerpt ] ].

(** A store as the page query of the site would fill it: a props object,
    the post, and its image with the [sharp.fluid] data of gatsby-image. *)
Definition sample_heap : heap :=
  {[ 1%positive := {[ "post" := VRef 2 ]};
     2%positive := {[ "slug" := VStr "first-post";
                      "title" := VStr "React State Management with Hooks and Context API";
                      "excerpt" := VStr "Managing state is an important part of an application.";
                      "image" := VRef 3 ]};
     3%positive := {[ "sharp" := VRef 4 ]};
     4%positive := {[ "fluid" := VRef 5 ]};
     5%positive := {[ "src" := VStr "/static/maarten-deckers.jpg" ]} ]}.

Definition sample_props : value := VRef 1.

(** The same post with [image] as the front matter has it, a path. *)
Definition raw_heap : heap :=
  {[ 1%positive := {[ "post" := VRef 2 ]};
     2%positive := {[ "slug" := VStr "first-post";
                      "title" := VStr "React State Management with Hooks and Context API";
                      "excerpt" := VStr "Managing state is an important part of an application.";
                      "image" := VStr "./images/maarten-deckers.jpg" ]} ]}.

(** A computation that leaves every store as it found it. *)
Definition read_only {A} (m : M A) : Prop := forall h, out_heap (m h) = h.

(** ** The tutorial reducer: [2020-first-post.mdx], "addMovie method" *)

Module Movies.

(** A movie as the post documents it ([initialMovies], and the object
    [addMovie] completes): [year] is a number in [initialMovies] and the
    string of the form input in [NewMovie]. *)
Record Movie := {
  id : string;
  title : string;
  year : value;
  watched : bool
}.

(** The reducer state: [movies], and whatever else the state object
    carries ([status], [error], ...), which [...state] copies. *)
Record State := {
  movies : list Movie;
  other : gmap string value
}.

Definition ADD_MOVIE : string := "ADD_MOVIE".
Definition MARK_WATCHED_MOVIE : string := "MARK_WATCHED_MOVIE".

(** [{ id }], the payload of a MARK_WATCHED_MOVIE action. *)
Record IdPayload := { payload_id : string }.

(** What an action of a given type carries: a movie, an [{ id }], or,
    for a type the reducer does not know, anything (it is never read). *)
Definition payload_shape (is_add is_mark : bool) : Type :=
  if is_add then Movie else if is_mark then IdPayload else value.

Definition Payload (type : string) : Type :=
  payload_shape (String.eqb type ADD_MOVIE)
                (String.eqb type MARK_WATCHED_MOVIE).

Record Action := {
  type : string;
  payload : Payload type
}.

(** [const moviesReducer = (state, action) => { switch (action.type) ... }] *)
Definition moviesReducer (state : State) (action : Action) : result State :=
  let 'Build_Action type payload := action in
  (if String.eqb type ADD_MOVIE as c
     return payload_shape c (String.eqb type MARK_WATCHED_MOVIE) ->
            result State
   then fun payload =>
     let movies' := payload :: movies state in
     Ok {| movies := movies'; other := other state |}
   else
     if String.eqb type MARK_WATCHED_MOVIE as c
       return payload_shape false c -> result State
     then fun payload =>
       let movies' :=
         map (fun movie =>
                if String.eqb (id movie) (payload_id payload)
                then {| id := id movie; title := title movie;
                        year := year movie;
                        watched := negb (watched movie) |}
                else movie)
             (movies state) in
       Ok {| movies := movies'; other := other state |}
     else fun _ =>
       Throw (Error ("Action is not supported: " +:+ type)))
    payload.

(** The callback of [state.movies.map] in the MARK_WATCHED_MOVIE case, for
    the payload id [i]. *)
Definition toggle_watched (i : string) (movie : Movie) : Movie :=
  if String.eqb (id movie) i
  then {| id := id movie; title := title movie; year := year movie;
          watched := negb (watched movie) |}
  else movie.

(** The two actions the hook builds. *)
Definition add_movie_action (movie : Movie) : Action :=
  {| type := ADD_MOVIE; payload := movie |}.

Definition mark_watched_movie_action (i : string) : Action :=
  {| type := MARK_WATCHED_MOVIE; payload := {| payload_id := i |} |}.

(** [initialMovies] as the post sketches it, with two ids standing for the
    results of [uuidv4()]. *)
Definition initialMovies : list Movie :=
  [ {| id := "id-godfather"; title := "The Godfather"; year := VNum 1972;
       watched := false |};
    {| id := "id-inception"; title := "Inception"; year := VNum 2010;
       watched := false |} ].

(** [const initialState = { movies: initialMovies }] *)
Definition initialState : State :=
  {| movies := initialMovies; other := ∅ |}.

(** The object [NewMovie] hands to [addMovie]. *)
Record MovieForm := {
  form_title : string;
  form_year : value
}.

Section Hook.

(** [uuidv4] of the uuid package draws on a source of randomness,
    threaded here as a generator state. *)
Variable G : Type.
Variable uuidv4 : G -> string * G.

(** What [useMoviesContext] works on: the reducer state React holds for
    the provider, and the generator. *)
Record Store := {
  state : State;
  gen : G
}.

(** [dispatch] of [React.useReducer]: the next state is the reducer's
    result; an error of the reducer propagates. *)
Definition dispatch (action : Action) (s : Store) : result Store :=
  match moviesReducer (state s) action with
  | Ok state' => Ok {| state := state'; gen := gen s |}
  | Throw e => Throw e
  end.

(** [addMovie]: the two assignments complete the form object into a
    movie, which is then the payload. *)
Definition addMovie (movie : MovieForm) (s : Store) : result Store :=
  let (uuid, gen') := uuidv4 (gen s) in
  let movie' := {| id := uuid; title := form_title movie;
                   year := form_year movie; watched := false |} in
  dispatch {| type := ADD_MOVIE; payload := movie' |}
           {| state := state s; gen := gen' |}.

Definition markWatchedMovie (i : string) (s : Store) : result Store :=
  dispatch {| type := MARK_WATCHED_MOVIE; payload := {| payload_id := i |} |} s.

End Hook.

Arguments state {G} _.
Arguments gen {G} _.

End Movies.

(** ** The content file: front matter of [2020-first-post.mdx] *)

Module Content.

(** [key: value], split at the first colon-space. *)
Definition split_key (line : string) : option (string * string) :=
  match String.index 0 ": " line with
  | Some n =>
      Some (String.substring 0 n line,
            String.substring (n + 2) (String.length line - (n + 2)) line)
  | None => None
  end.

(** A scalar between single quotes stands for the text between them. *)
Definition unquote (v : string) : string :=
  let n := String.length v in
  if (2 <=? n)%nat && String.prefix "'" v &&
     String.eqb (String.substring (n - 1) 1 v) "'"
  then String.substring 1 (n - 2) v
  else v.

(** The lines of the header up to the closing [---], and what follows. *)
Fixpoint parse_fields (lines : list string)
  : option (list (string * string) * list string) :=
  match lines with
  | [] => None
  | line :: rest =>
      if String.eqb line "---" then Some ([], rest)
      else
        match split_key line, parse_fields rest with
        | Some (k, v), Some (fields, body) => Some ((k, unquote v) :: fields, body)
        | _, _ => None
        end
  end.

(** A content file is a [---] line, the header fields, a [---] line, and
    the body. *)
Definition parse_content (lines : list string)
  : option (list (string * string) * list string) :=
  match lines with
  | line :: rest => if String.eqb line "---" then parse_fields rest else None
  | [] => None
  end.

Definition metadata (key : string) (fields : list (string * string))
  : option string :=
  snd <$> List.find (fun kv => String.eqb (fst kv) key) fields.

(** Lines 1 to 8 of the post; [narrative] stands for the lines after the
    hero image. *)
Definition first_post_opening : list string :=
  [ "";
    "![maarten-deckers](./images/maarten-deckers.jpg)" ].

Definition first_post (narrative : list string) : list string :=
  [ "---";
    "title: 'React State Management with Hooks and Context API'";
    "slug: 'first-post'";
    "author: 'Binh Tran'";
    "image: ./images/maarten-deckers.jpg";
    "---" ] ++ (first_post_opening ++ narrative)%list.

End Content.

(** ** The post's earlier listing: "markWatchedMovie method" *)

Module MarkOnly.

Import Movies.

(** In this listing only MARK_WATCHED_MOVIE exists: its actions carry an
    [{ id }], and an action of any other type anything. *)
Definition Payload (type : string) : Type :=
  payload_shape false (String.eqb type MARK_WATCHED_MOVIE).

Record Action := {
  type : string;
  payload : Payload type
}.

(** [moviesReducer] of lines 211 to 231: one case and the default. *)
Definition moviesReducer (state : State) (action : Action) : result State :=
  let 'Build_Action type payload := action in
  (if String.eqb type MARK_WATCHED_MOVIE as c
     return payload_shape false c -> result State
   then fun payload =>
     let movies' :=
       map (fun movie =>
              if String.eqb (id movie) (payload_id payload)
              then {| id := id movie; title := title movie;
                      year := year movie;
                      watched := negb (watched movie) |}
              else movie)
           (movies state) in
     Ok {| movies := movies'; other := other state |}
   else fun _ =>
     Throw (Error ("Action is not supported: " +:+ type)))
    payload.

(** The action [markWatchedMovie] of this listing dispatches. *)
Definition mark_watched_movie_action (i : string) : Action :=
  {| type := MARK_WATCHED_MOVIE; payload := {| payload_id := i |} |}.

End MarkOnly.

(** ** The post's [NewMovie] component: the form and its handlers *)

Module NewMovie.

Import Movies.

(** [getInitialMovieForm]: [{ title: '', year: '' }]. *)
Definition getInitialMovieForm : MovieForm :=
  {| form_title := ""; form_year := VStr "" |}.

(** [handleChange] is the [onChange] of the two inputs of the form, named
    [title] and [year]; [event.target] is one of them, and its [value] is
    the text of the input (also for [type="number"]). *)
Inductive Input := TitleInput | YearInput.

Definition name (input : Input) : string :=
  match input with
  | TitleInput => "title"
  | YearInput => "year"
  end.

Record ChangeEvent := {
  target : Input;
  target_value : string
}.

(** [setForm(prev => ({ ...prev, [name]: value }))] *)
Definition handleChange (event : ChangeEvent) (prev : MovieForm) : MovieForm :=
  match target event with
  | TitleInput =>
      {| form_title := target_value event; form_year := form_year prev |}
  | YearInput =>
      {| form_title := form_title prev; form_year := VStr (target_value event) |}
  end.

(** [resetForm]: [setForm(getInitialMovieForm())]. *)
Definition resetForm (form : MovieForm) : MovieForm := getInitialMovieForm.

Section Handlers.

Variable G : Type.
Variable uuidv4 : G -> string * G.

(** [handleSubmit]: [addMovie(form); resetForm();] on the form state of
    the component and the store of the provider. *)
Definition handleSubmit (form : MovieForm) (s : Store G)
  : result (MovieForm * Store G) :=
  match addMovie G uuidv4 form s with
  | Ok s' => Ok (resetForm form, s')
  | Throw e => Throw e
  end.

(** What a user does to the page: edit an input, submit the form, or tick
    the checkbox of a movie ([handleCheckboxChange] of [Movie], which calls
    [markWatchedMovie(movie.id)]). *)
Inductive UserEvent :=
| Change (event : ChangeEvent)
| Submit
| Tick (movie_id : string).

Definition handle (e : UserEvent) (page : MovieForm * Store G)
  : result (MovieForm * Store G) :=
  let (form, s) := page in
  match e with
  | Change event => Ok (handleChange event form, s)
  | Submit => handleSubmit form s
  | Tick i =>
      match markWatchedMovie G i s with
      | Ok s' => Ok (form, s')
      | Throw e => Throw e
      end
  end.

Definition is_submit (e : UserEvent) : bool :=
  match e with
  | Submit => true
  | _ => false
  end.

(** How many of the events are submits. *)
Definition submits (es : list UserEvent) : nat :=
  length (List.filter is_submit es).

Fixpoint handle_all (es : list UserEvent) (page : MovieForm * Store G)
  : result (MovieForm * Store G) :=
  match es with
  | [] => Ok page
  | e :: es' =>
      match handle e page with
      | Ok page' => handle_all es' page'
      | Throw err => Throw err
      end
  end.

End Handlers.

End NewMovie.

(** ** Views of a list of movies *)

Module MovieFields.

Import Movies.

(** The ids of a list, in order. *)
Definition ids (l : list Movie) : list string := map id l.

(** What MARK_WATCHED_MOVIE never changes in a movie. *)
Definition static (movie : Movie) : string * string * value :=
  (id movie, title movie, year movie).

(** A value that is a string, as the [value] of an input is. *)
Definition is_text (v : value) : Prop := exists text, v = VStr text.

End MovieFields.

(** The sample store with one more property on the post. *)
Definition sample_heap_author : heap :=
  <[ 2%positive :=
       {[ "slug" := VStr "first-post";
          "title" := VStr "React State Management with Hooks and Context API";
          "excerpt" := VStr "Managing state is an important part of an application.";
          "image" := VRef 3;
          "author" := VStr "Binh Tran" ]} ]> sample_heap.

(** ** Lemmas on the monad *)

Lemma read_only_ret {A} (a : A) : read_only (ret a).
Proof. intros h. reflexivity. Qed.

Lemma read_only_get_prop v k : read_only (get_prop v k).
Proof. intros h. reflexivity. Qed.

Lemma read_only_bind {A B} (m : M A) (f : A -> M B) :
  read_only m -> (forall a, read_only (f a)) -> read_only (bind m f).
Proof.
  intros Hm Hf h. unfold bind.
  destruct (out_result (m h)) as [a|e] eqn:E; simpl.
  - rewrite Hm. apply Hf.
  - apply Hm.
Qed.

Create HintDb read_only.
#[local] Hint Resolve read_only_ret read_only_get_prop : read_only.

Ltac read_only_steps :=
  repeat (apply read_only_bind; [auto with read_only | intros ?]);
  auto with read_only.

Lemma PostPreview_read_only props : read_only (PostPreview props).
Proof. unfold PostPreview. read_only_steps. Qed.

Lemma nullish_field_ref h v k :
  nullish (field h (field h v "image") k) = false ->
  nullish (field h v "image") = false.
Proof.
  unfold field. destruct (lookup_prop h v "image") as [x|e]; simpl.
  - destruct x; simpl; auto.
  - discriminate.
Qed.

Lemma get_prop_run h v k :
  nullish v = false ->
  get_prop v k h = Outcome h [(v, k)] (Ok (field h v k)).
Proof.
  intros Hv. unfold get_prop, field.
  destruct v; simpl in *; try discriminate; reflexivity.
Qed.

Lemma bind_get_prop_run {B} h v k (f : value -> M B) :
  nullish v = false ->
  bind (get_prop v k) f h =
  let o := f (field h v k) h in
  Outcome (out_heap o) ((v, k) :: out_reads o) (out_result o).
Proof.
  intros Hv. unfold bind. rewrite get_prop_run by assumption. reflexivity.
Qed.

(** The reads of one rendering, in order. *)
Definition preview_reads (h : heap) (props : value) : list access :=
  let post := field h props "post" in
  let image := field h post "image" in
  let sharp := field h image "sharp" in
  [ (props, "post"); (post, "slug"); (post, "title"); (post, "image");
    (image, "sharp"); (sharp, "fluid"); (post, "slug"); (post, "title");
    (post, "excerpt") ].

Lemma PostPreview_renders h props :
  nullish props = false ->
  valid_post_summary h (field h props "post") = true ->
  PostPreview props h =
  let post := field h props "post" in
  Outcome h (preview_reads h props)
    (Ok (preview (field h post "slug") (field h post "title")
           (field h post "excerpt")
           (field h (field h (field h post "image") "sharp") "fluid"))).
Proof.
  intros Hprops Hvalid.
  apply andb_prop in Hvalid as [Hfields Hsharp].
  apply negb_true_iff in Hsharp.
  pose proof (nullish_field_ref _ _ _ Hsharp) as Himage.
  assert (Hpost : nullish (field h props "post") = false).
  { unfold provides_contract_fields in Hfields.
    destruct (field h props "post"); simpl in *; try discriminate; reflexivity. }
  unfold PostPreview.
  repeat (rewrite bind_get_prop_run by assumption; cbv zeta).
  reflexivity.
Qed.

(** ** The component: theorems *)

(** C1. For a valid Post Summary the rendered tree holds exactly two [Link]
    elements; the [to] of both is the summary's slug; the first wraps the
    thumbnail [Image], the second wraps the title. *)
Theorem PostPreview_two_links h props :
  nullish props = false ->
  valid_post_summary h (field h props "post") = true ->
  let post := field h props "post" in
  exists tree thumbnail_link title_link image_props,
    out_result (PostPreview props h) = Ok tree /\
    links tree = [thumbnail_link; title_link] /\
    prop "to" thumbnail_link = Some (PValue (field h post "slug")) /\
    prop "to" title_link = Some (PValue (field h post "slug")) /\
    children_of thumbnail_link = [Element Image image_props []] /\
    children_of title_link = [Expr (field h post "title")].
Proof.
  intros Hprops Hvalid post.
  rewrite PostPreview_renders by assumption. cbv zeta. simpl out_result.
  eexists _, _, _, _. split; [reflexivity|].
  split; [reflexivity|]. repeat split.
Qed.

Lemma PostPreview_two_links_witness :
  exists tree thumbnail_link title_link image_props,
    out_result (PostPreview sample_props sample_heap) = Ok tree /\
    links tree = [thumbnail_link; title_link] /\
    prop "to" thumbnail_link = Some (PValue (VStr "first-post")) /\
    prop "to" title_link = Some (PValue (VStr "first-post")) /\
    children_of thumbnail_link = [Element Image image_props []] /\
    children_of title_link =
      [Expr (VStr "React State Management with Hooks and Context API")].
Proof.
  apply (PostPreview_two_links sample_heap sample_props); reflexivity.
Defined.

(** C2. Rendering is deterministic and free of side effects: it leaves the
    store as it found it, so a second invocation on the same props, run in
    the store the first one left, has the same outcome (the same markup, or
    the same error). *)
Theorem PostPreview_pure h props :
  out_heap (PostPreview props h) = h /\
  PostPreview props (out_heap (PostPreview props h)) = PostPreview props h.
Proof.
  pose proof (PostPreview_read_only props h) as Hh.
  split; [exact Hh|]. rewrite Hh. reflexivity.
Qed.

(** C3 as stated fails: an object that provides [slug], [title], [excerpt]
    and [image], with [image] a path string, makes the renderer throw a
    [TypeError] at [post.image.sharp.fluid]. *)
Lemma PostPreview_contract_fields_not_enough :
  provides_contract_fields raw_heap (field raw_heap sample_props "post") = true /\
  out_result (PostPreview sample_props raw_heap) = Throw TypeError.
Proof. split; reflexivity. Qed.

(** C3, amended. For a Post Summary object that provides [slug], [title],
    [excerpt] and [image] and whose [image.sharp] is neither [undefined] nor
    [null], the renderer raises no error; of the post it reads only those
    four fields, and beyond them only [image.sharp] and
    [image.sharp.fluid]. *)
Theorem PostPreview_succeeds h props :
  nullish props = false ->
  valid_post_summary h (field h props "post") = true ->
  let post := field h props "post" in
  let image := field h post "image" in
  let sharp := field h image "sharp" in
  (exists tree, out_result (PostPreview props h) = Ok tree) /\
  out_reads (PostPreview props h) =
    [ (props, "post"); (post, "slug"); (post, "title"); (post, "image");
      (image, "sharp"); (sharp, "fluid"); (post, "slug"); (post, "title");
      (post, "excerpt") ].
Proof.
  intros Hprops Hvalid. cbv zeta.
  rewrite PostPreview_renders by assumption. cbv zeta.
  split; [eexists; reflexivity | reflexivity].
Qed.

Lemma PostPreview_succeeds_witness :
  (exists tree, out_result (PostPreview sample_props sample_heap) = Ok tree) /\
  out_reads (PostPreview sample_props sample_heap) =
    [ (VRef 1, "post"); (VRef 2, "slug"); (VRef 2, "title"); (VRef 2, "image");
      (VRef 3, "sharp"); (VRef 4, "fluid"); (VRef 2, "slug"); (VRef 2, "title");
      (VRef 2, "excerpt") ].
Proof.
  apply (PostPreview_succeeds sample_heap sample_props); reflexivity.
Defined.

(** C4 as stated fails: a Post Summary that provides [slug], [title],
    [excerpt] and [image], with [image] a path string, has no rendered
    output at all, so no title link, paragraph or thumbnail either. *)
Lemma PostPreview_no_output_without_sharp :
  provides_contract_fields raw_heap (field raw_heap sample_props "post") = true /\
  ~ (exists tree, out_result (PostPreview sample_props raw_heap) = Ok tree).
Proof.
  split; [reflexivity|]. intros [tree Htree]. discriminate Htree.
Qed.

(** C4, amended. For a Post Summary whose [image.sharp] is neither
    [undefined] nor [null], the rendered article holds, in order, the
    thumbnail link around an [Image] whose [fluid] is the summary's
    [image.sharp.fluid] (and whose [alt] is the title), a heading whose link
    has the title as its text, and a paragraph with the excerpt. *)
Theorem PostPreview_content h props :
  nullish props = false ->
  valid_post_summary h (field h props "post") = true ->
  let post := field h props "post" in
  let slug := field h post "slug" in
  let title := field h post "title" in
  let fluid := field h (field h (field h post "image") "sharp") "fluid" in
  exists tree, out_result (PostPreview props h) = Ok tree /\
    children_of tree =
      [ Element Link [("to", PValue slug); ("css", PCss link_css)]
          [ Element Image [("alt", PValue title); ("fluid", PValue fluid)] [] ];
        Element (Tag "h3") []
          [ Element Link [("to", PValue slug)] [ Expr title ] ];
        Element (Tag "p") [] [ Expr (field h post "excerpt") ] ].
Proof.
  intros Hprops Hvalid. cbv zeta.
  rewrite PostPreview_renders by assumption. cbv zeta.
  eexists. split; reflexivity.
Qed.

Lemma PostPreview_content_witness :
  exists tree, out_result (PostPreview sample_props sample_heap) = Ok tree /\
    children_of tree =
      [ Element Link [("to", PValue (VStr "first-post")); ("css", PCss link_css)]
          [ Element Image
              [("alt", PValue (VStr "React State Management with Hooks and Context API"));
               ("fluid", PValue (VRef 5))] [] ];
        Element (Tag "h3") []
          [ Element Link [("to", PValue (VStr "first-post"))]
              [ Expr (VStr "React State Management with Hooks and Context API") ] ];
        Element (Tag "p") []
          [ Expr (VStr "Managing state is an important part of an application.") ] ].
Proof.
  apply (PostPreview_content sample_heap sample_props); reflexivity.
Defined.

(** C5. The renderer never mutates the Post Summary: whatever the input,
    and whether it returns or throws, every object of the store is after
    rendering what it was before, so every field of the post reads as
    before. *)
Theorem PostPreview_no_mutation h props :
  let post := field h props "post" in
  let h' := out_heap (PostPreview props h) in
  (forall l : loc, h' !! l = h !! l) /\
  (forall k : string, lookup_prop h' post k = lookup_prop h post k).
Proof.
  cbv zeta. rewrite (PostPreview_read_only props h). split; reflexivity.
Qed.

(** ** The tutorial reducer: theorems *)

Module MoviesFacts.

Import Movies.

Lemma moviesReducer_add state (movie : Movie) :
  moviesReducer state (add_movie_action movie) =
  Ok {| movies := movie :: movies state; other := other state |}.
Proof. reflexivity. Qed.

Lemma moviesReducer_mark state i :
  moviesReducer state (mark_watched_movie_action i) =
  Ok {| movies := map (toggle_watched i) (movies state); other := other state |}.
Proof. reflexivity. Qed.

Example mark_inception_watched :
  moviesReducer initialState (mark_watched_movie_action "id-inception") =
  Ok {| movies :=
          [ {| id := "id-godfather"; title := "The Godfather";
               year := VNum 1972; watched := false |};
            {| id := "id-inception"; title := "Inception";
               year := VNum 2010; watched := true |} ];
        other := ∅ |}.
Proof. reflexivity. Qed.

Example unknown_action_throws :
  moviesReducer initialState {| type := "REMOVE_MOVIE"; payload := VUndefined |} =
  Throw (Error "Action is not supported: REMOVE_MOVIE").
Proof. reflexivity. Qed.

Example add_movie_from_form :
  addMovie nat (fun n => (if n is O then "id-first" else "id-next", S n))
    {| form_title := "Alien"; form_year := VStr "1979" |}
    {| state := initialState; gen := O |} =
  Ok {| state :=
          {| movies :=
               {| id := "id-first"; title := "Alien"; year := VStr "1979";
                  watched := false |} :: initialMovies;
             other := ∅ |};
        gen := 1 |}.
Proof. reflexivity. Qed.

Lemma add_movie_action_shape (action : Action) :
  type action = ADD_MOVIE -> exists movie, action = add_movie_action movie.
Proof.
  destruct action as [t p]. simpl. intros ->. exists p. reflexivity.
Qed.

Lemma mark_watched_movie_action_shape (action : Action) :
  type action = MARK_WATCHED_MOVIE ->
  exists i, action = mark_watched_movie_action i.
Proof.
  destruct action as [t p]. simpl. intros ->. destruct p as [i].
  exists i. reflexivity.
Qed.

Lemma toggle_watched_id i movie : id (toggle_watched i movie) = id movie.
Proof. unfold toggle_watched. destruct (String.eqb (id movie) i); reflexivity. Qed.

Lemma toggle_watched_twice i movie :
  toggle_watched i (toggle_watched i movie) = movie.
Proof.
  unfold toggle_watched.
  destruct (String.eqb (id movie) i) eqn:E; simpl; rewrite E.
  - destruct movie as [mi mt my mw]. simpl. rewrite negb_involutive. reflexivity.
  - reflexivity.
Qed.

Lemma toggle_watched_other i movie : id movie <> i -> toggle_watched i movie = movie.
Proof.
  intros Hne. unfold toggle_watched.
  destruct (String.eqb_spec (id movie) i); [contradiction | reflexivity].
Qed.

Lemma map_toggle_watched_twice i (l : list Movie) :
  map (toggle_watched i) (map (toggle_watched i) l) = l.
Proof.
  induction l as [|movie l IH]; simpl.
  - reflexivity.
  - rewrite toggle_watched_twice, IH. reflexivity.
Qed.

(** C7. MARK_WATCHED_MOVIE toggles: applied once it negates [watched] in
    every movie that carries the payload id, leaves every movie whose id is
    not the payload's as it was, and keeps the length of the list and the
    order of the movies; applied twice with the same id it gives back the
    state it started from. *)
Theorem mark_watched_movie_toggles (state : State) (i : string) :
  exists state1,
    moviesReducer state (mark_watched_movie_action i) = Ok state1 /\
    moviesReducer state1 (mark_watched_movie_action i) = Ok state /\
    length (movies state1) = length (movies state) /\
    map id (movies state1) = map id (movies state) /\
    (forall (n : nat) (movie : Movie),
        movies state !! n = Some movie -> id movie <> i ->
        movies state1 !! n = Some movie) /\
    (forall (n : nat) (movie : Movie),
        movies state !! n = Some movie -> id movie = i ->
        movies state1 !! n =
          Some {| id := id movie; title := title movie; year := year movie;
                  watched := negb (watched movie) |}).
Proof.
  eexists. split; [apply moviesReducer_mark|].
  rewrite moviesReducer_mark. simpl.
  split; [|split; [|split; [|split]]].
  - rewrite map_toggle_watched_twice. destruct state; reflexivity.
  - apply length_map.
  - rewrite map_map. apply map_ext. intros movie. apply toggle_watched_id.
  - intros n movie Hn Hne.
    change (map (toggle_watched i) (movies state)) with (toggle_watched i <$> movies state).
    rewrite list_lookup_fmap, Hn. simpl.
    rewrite toggle_watched_other by assumption. reflexivity.
  - intros n movie Hn Heq.
    change (map (toggle_watched i) (movies state)) with (toggle_watched i <$> movies state).
    rewrite list_lookup_fmap, Hn. simpl.
    unfold toggle_watched. rewrite Heq, String.eqb_refl. reflexivity.
Qed.

(** C8. ADD_MOVIE prepends: the new list is the payload followed by the old
    list, one longer, the rest of the state as it was; and a movie added
    through [addMovie] is the head of the new list, with [watched] false
    and the id that this call of [uuidv4] generated. *)
Theorem add_movie_prepends (state0 : State) (payload : Movie)
    (G : Type) (uuidv4 : G -> string * G) (s : Store G) (form : MovieForm) :
  (exists state1,
      moviesReducer state0 (add_movie_action payload) = Ok state1 /\
      movies state1 = payload :: movies state0 /\
      length (movies state1) = S (length (movies state0)) /\
      other state1 = other state0) /\
  (exists s1,
      addMovie G uuidv4 form s = Ok s1 /\
      movies (Movies.state s1) =
        {| id := fst (uuidv4 (gen s)); title := form_title form;
           year := form_year form; watched := false |}
        :: movies (Movies.state s) /\
      gen s1 = snd (uuidv4 (gen s))).
Proof.
  split.
  - eexists. split; [apply moviesReducer_add|]. simpl. auto.
  - unfold addMovie. destruct (uuidv4 (gen s)) as [uuid g'].
    eexists. split; [reflexivity|]. simpl. auto.
Qed.

(** C9. [moviesReducer] returns a state exactly for the action types
    ADD_MOVIE and MARK_WATCHED_MOVIE, and for every other type throws the
    error "Action is not supported: <type>". *)
Theorem moviesReducer_supported (state : State) (action : Action) :
  match moviesReducer state action with
  | Ok _ => type action = ADD_MOVIE \/ type action = MARK_WATCHED_MOVIE
  | Throw e =>
      type action <> ADD_MOVIE /\ type action <> MARK_WATCHED_MOVIE /\
      e = Error ("Action is not supported: " +:+ type action)
  end.
Proof.
  destruct action as [t p]. revert p. unfold Payload, moviesReducer. simpl.
  destruct (String.eqb t ADD_MOVIE) eqn:Ha; simpl.
  - intros _. left. apply String.eqb_eq. exact Ha.
  - destruct (String.eqb t MARK_WATCHED_MOVIE) eqn:Hm; simpl; intros _.
    + right. apply String.eqb_eq. exact Hm.
    + apply String.eqb_neq in Ha, Hm. auto.
Qed.

End MoviesFacts.

(** ** The content file: theorem *)

Module ContentFacts.

Import Content.

(** C6. The content file of the repository parses as a metadata header
    followed by a body; the header provides a title, a slug, an author and
    the path of the hero image, and the body is the narrative, whatever its
    lines. *)
Theorem first_post_frontmatter (narrative : list string) :
  exists fields body,
    parse_content (first_post narrative) = Some (fields, body) /\
    metadata "title" fields =
      Some "React State Management with Hooks and Context API" /\
    metadata "slug" fields = Some "first-post" /\
    metadata "author" fields = Some "Binh Tran" /\
    metadata "image" fields = Some "./images/maarten-deckers.jpg" /\
    body = (first_post_opening ++ narrative)%list.
Proof.
  eexists _, _. split; [reflexivity|]. repeat split.
Qed.

End ContentFacts.

(** ** The component: further properties *)

Lemma bind_get_prop_throw {B} h v k (f : value -> M B) :
  nullish v = true ->
  bind (get_prop v k) f h = Outcome h [(v, k)] (Throw TypeError).
Proof.
  intros Hv. unfold bind, get_prop.
  destruct v; simpl in *; try discriminate; reflexivity.
Qed.

(** The outcome of a rendering, by the first of [props], [post],
    [post.image] and [post.image.sharp] that is [undefined] or [null]. *)
Lemma PostPreview_outcome h props :
  let post := field h props "post" in
  let image := field h post "image" in
  let sharp := field h image "sharp" in
  PostPreview props h =
  if nullish props then
    Outcome h (take 1 (preview_reads h props)) (Throw TypeError)
  else if nullish post then
    Outcome h (take 2 (preview_reads h props)) (Throw TypeError)
  else if nullish image then
    Outcome h (take 5 (preview_reads h props)) (Throw TypeError)
  else if nullish sharp then
    Outcome h (take 6 (preview_reads h props)) (Throw TypeError)
  else
    Outcome h (preview_reads h props)
      (Ok (preview (field h post "slug") (field h post "title")
             (field h post "excerpt") (field h sharp "fluid"))).
Proof.
  cbv zeta. unfold PostPreview.
  destruct (nullish props) eqn:Hprops.
  { rewrite bind_get_prop_throw by assumption. reflexivity. }
  rewrite bind_get_prop_run by assumption. cbv zeta.
  destruct (nullish (field h props "post")) eqn:Hpost.
  { rewrite bind_get_prop_throw by assumption. reflexivity. }
  do 3 (rewrite bind_get_prop_run by assumption; cbv zeta).
  destruct (nullish (field h (field h props "post") "image")) eqn:Himage.
  { rewrite bind_get_prop_throw by assumption. reflexivity. }
  rewrite bind_get_prop_run by assumption. cbv zeta.
  destruct (nullish (field h (field h (field h props "post") "image") "sharp"))
    eqn:Hsharp.
  { rewrite bind_get_prop_throw by assumption. reflexivity. }
  repeat (rewrite bind_get_prop_run by assumption; cbv zeta).
  reflexivity.
Qed.

(** X1. The renderer returns a tree exactly when [props], [post],
    [post.image] and [post.image.sharp] are all neither [undefined] nor
    [null]; the tree is then the card of the values read, a [slug], [title]
    or [excerpt] the post lacks appearing as [undefined]; in every other
    case the error is a [TypeError]. *)
Theorem PostPreview_renders_iff h props :
  let post := field h props "post" in
  let image := field h post "image" in
  let sharp := field h image "sharp" in
  match out_result (PostPreview props h) with
  | Ok tree =>
      nullish props = false /\ nullish post = false /\
      nullish image = false /\ nullish sharp = false /\
      tree = preview (field h post "slug") (field h post "title")
               (field h post "excerpt") (field h sharp "fluid")
  | Throw e =>
      e = TypeError /\
      nullish props || nullish post || nullish image || nullish sharp = true
  end.
Proof.
  cbv zeta. pose proof (PostPreview_outcome h props) as H. cbv zeta in H.
  rewrite H. clear H.
  destruct (nullish props); [simpl; auto|].
  destruct (nullish (field h props "post")); [simpl; auto|].
  destruct (nullish (field h (field h props "post") "image")); [simpl; auto|].
  destruct (nullish (field h (field h (field h props "post") "image") "sharp"));
    simpl; auto 10.
Qed.

(** X2. Whatever the input, the property reads of a rendering are an
    initial part of the nine reads of a successful one, in the same order;
    and a rendering that throws made its last read on [undefined] or
    [null]. *)
Theorem PostPreview_reads_prefix h props :
  out_reads (PostPreview props h) `prefix_of` preview_reads h props /\
  match out_result (PostPreview props h) with
  | Ok _ => out_reads (PostPreview props h) = preview_reads h props
  | Throw _ =>
      exists v k, last (out_reads (PostPreview props h)) = Some (v, k) /\
                  nullish v = true
  end.
Proof.
  pose proof (PostPreview_outcome h props) as H. cbv zeta in H.
  rewrite H. clear H.
  destruct (nullish props) eqn:Hprops.
  { simpl. split; [eexists; reflexivity | eauto]. }
  destruct (nullish (field h props "post")) eqn:Hpost.
  { simpl. split; [eexists; reflexivity | eauto]. }
  destruct (nullish (field h (field h props "post") "image")) eqn:Himage.
  { simpl. split; [eexists; reflexivity | eauto]. }
  destruct (nullish (field h (field h (field h props "post") "image") "sharp"))
    eqn:Hsharp.
  { simpl. split; [eexists; reflexivity | eauto]. }
  simpl. split; [exists []; reflexivity | reflexivity].
Qed.

Lemma field_agree h1 h2 v k :
  lookup_prop h1 v k = lookup_prop h2 v k -> field h1 v k = field h2 v k.
Proof. unfold field. intros ->. reflexivity. Qed.

(** X3. The markup depends on the store only through the values read: two
    stores in which the nine reads of a rendering give the same values give
    the same result, whatever else they hold. *)
Theorem PostPreview_depends_on_reads h1 h2 props :
  Forall (fun a => lookup_prop h1 (fst a) (snd a) = lookup_prop h2 (fst a) (snd a))
         (preview_reads h1 props) ->
  out_result (PostPreview props h1) = out_result (PostPreview props h2).
Proof.
  intros Hreads. unfold preview_reads in Hreads.
  repeat match goal with
         | H : Forall _ (_ :: _) |- _ =>
             let Hx := fresh "Hx" in
             apply Forall_cons in H as [Hx H]; simpl in Hx;
             apply field_agree in Hx
         end.
  pose proof (PostPreview_outcome h1 props) as E1.
  pose proof (PostPreview_outcome h2 props) as E2.
  cbv zeta in E1, E2. rewrite E1, E2. clear E1 E2.
  repeat match goal with
         | H : field h1 _ _ = field h2 _ _ |- _ => rewrite <- H; clear H
         end.
  destruct (nullish props); [reflexivity|].
  destruct (nullish (field h1 props "post")); [reflexivity|].
  destruct (nullish (field h1 (field h1 props "post") "image")); [reflexivity|].
  destruct (nullish (field h1 (field h1 (field h1 props "post") "image") "sharp"));
    reflexivity.
Qed.

Lemma PostPreview_depends_on_reads_witness :
  out_result (PostPreview sample_props sample_heap) =
  out_result (PostPreview sample_props sample_heap_author).
Proof.
  apply (PostPreview_depends_on_reads sample_heap sample_heap_author sample_props).
  repeat constructor.
Defined.

(** ** The tutorial reducer: further properties *)

Module MoviesProps.

Import Movies MovieFields.

Lemma map_toggle_watched_absent i (l : list Movie) :
  i ∉ ids l -> map (toggle_watched i) l = l.
Proof.
  induction l as [|movie l IH]; simpl; intros Hnot.
  - reflexivity.
  - apply not_elem_of_cons in Hnot as [Hne Hnot].
    rewrite MoviesFacts.toggle_watched_other by congruence.
    rewrite IH by assumption. reflexivity.
Qed.

Lemma map_toggle_watched_unique i (l : list Movie) n movie :
  NoDup (ids l) -> l !! n = Some movie -> id movie = i ->
  map (toggle_watched i) l = <[n := toggle_watched i movie]> l.
Proof.
  revert n. induction l as [|x l IH]; intros n Hnodup Hn Hid.
  - discriminate.
  - simpl in Hnodup. apply NoDup_cons in Hnodup as [Hx Hnodup].
    destruct n as [|n]; simpl in *.
    + injection Hn as ->. subst i.
      rewrite map_toggle_watched_absent by assumption. reflexivity.
    + assert (Hin : id movie ∈ ids l).
      { apply list_elem_of_lookup_2 in Hn. unfold ids.
        change (map id l) with (id <$> l). apply list_elem_of_fmap_2'
          with (x := movie); auto. }
      rewrite MoviesFacts.toggle_watched_other
        by (intros Heq; apply Hx; rewrite Heq, <- Hid; exact Hin).
      rewrite (IH n) by assumption. reflexivity.
Qed.

Lemma toggle_watched_comm i j movie :
  toggle_watched j (toggle_watched i movie) =
  toggle_watched i (toggle_watched j movie).
Proof.
  unfold toggle_watched.
  destruct (String.eqb (id movie) i) eqn:Ei,
           (String.eqb (id movie) j) eqn:Ej;
    simpl; rewrite ?Ei, ?Ej; reflexivity.
Qed.

Lemma toggle_watched_title i movie : title (toggle_watched i movie) = title movie.
Proof. unfold toggle_watched. destruct (String.eqb (id movie) i); reflexivity. Qed.

Lemma toggle_watched_year i movie : year (toggle_watched i movie) = year movie.
Proof. unfold toggle_watched. destruct (String.eqb (id movie) i); reflexivity. Qed.

Lemma ids_toggle_watched i (l : list Movie) : ids (map (toggle_watched i) l) = ids l.
Proof.
  unfold ids. rewrite map_map. apply map_ext. intros movie.
  apply MoviesFacts.toggle_watched_id.
Qed.

(** X4. MARK_WATCHED_MOVIE with an id that no movie of the list carries
    returns a state equal to the one it was given. *)
Theorem mark_absent_id_unchanged (state : State) (i : string) :
  i ∉ ids (movies state) ->
  moviesReducer state (mark_watched_movie_action i) = Ok state.
Proof.
  intros Hnot. rewrite MoviesFacts.moviesReducer_mark.
  rewrite map_toggle_watched_absent by assumption.
  destruct state; reflexivity.
Qed.

Lemma mark_absent_id_unchanged_witness :
  moviesReducer initialState (mark_watched_movie_action "id-alien") =
  Ok initialState.
Proof.
  apply (mark_absent_id_unchanged initialState "id-alien").
  apply (bool_decide_unpack _). reflexivity.
Defined.

(** X5. When the ids of the list are pairwise distinct and the movie at
    position [n] carries the payload id, MARK_WATCHED_MOVIE replaces that
    one position by the movie with [watched] negated and changes no other
    position. *)
Theorem mark_unique_id_one_position (state : State) (n : nat) (movie : Movie) :
  NoDup (ids (movies state)) ->
  movies state !! n = Some movie ->
  moviesReducer state (mark_watched_movie_action (id movie)) =
  Ok {| movies :=
          <[n := {| id := id movie; title := title movie; year := year movie;
                    watched := negb (watched movie) |}]> (movies state);
        other := other state |}.
Proof.
  intros Hnodup Hn. rewrite MoviesFacts.moviesReducer_mark.
  rewrite (map_toggle_watched_unique (id movie) (movies state) n movie)
    by auto.
  unfold toggle_watched. rewrite String.eqb_refl. reflexivity.
Qed.

Lemma mark_unique_id_one_position_witness :
  moviesReducer initialState (mark_watched_movie_action "id-inception") =
  Ok {| movies :=
          <[1%nat := {| id := "id-inception"; title := "Inception";
                        year := VNum 2010; watched := true |}]> initialMovies;
        other := ∅ |}.
Proof.
  apply (mark_unique_id_one_position initialState 1
           {| id := "id-inception"; title := "Inception"; year := VNum 2010;
              watched := false |}).
  - apply (bool_decide_unpack _). reflexivity.
  - reflexivity.
Defined.

(** X6. MARK_WATCHED_MOVIE changes nothing but [watched] flags: the titles
    and the years of the movies, in order, and the other fields of the state
    are as before, also when several movies carry the id. *)
Theorem mark_changes_only_watched (state : State) (i : string) :
  exists state1,
    moviesReducer state (mark_watched_movie_action i) = Ok state1 /\
    map title (movies state1) = map title (movies state) /\
    map year (movies state1) = map year (movies state) /\
    other state1 = other state.
Proof.
  eexists. split; [apply MoviesFacts.moviesReducer_mark|]. simpl.
  split; [|split; [|reflexivity]].
  - rewrite map_map. apply map_ext. intros movie. apply toggle_watched_title.
  - rewrite map_map. apply map_ext. intros movie. apply toggle_watched_year.
Qed.

(** X7. Two MARK_WATCHED_MOVIE actions commute: marking [i] then [j] and
    marking [j] then [i] end in the same state. *)
Theorem mark_mark_commute (state : State) (i j : string) :
  exists state_i state_j state2,
    moviesReducer state (mark_watched_movie_action i) = Ok state_i /\
    moviesReducer state (mark_watched_movie_action j) = Ok state_j /\
    moviesReducer state_i (mark_watched_movie_action j) = Ok state2 /\
    moviesReducer state_j (mark_watched_movie_action i) = Ok state2.
Proof.
  eexists _, _, _.
  split; [apply MoviesFacts.moviesReducer_mark|].
  split; [apply MoviesFacts.moviesReducer_mark|].
  split; [apply MoviesFacts.moviesReducer_mark|].
  rewrite MoviesFacts.moviesReducer_mark. simpl. f_equal. f_equal.
  rewrite !map_map. apply map_ext. intros movie. apply toggle_watched_comm.
Qed.

(** X8. ADD_MOVIE and MARK_WATCHED_MOVIE commute when the added movie does
    not carry the marked id. *)
Theorem add_mark_commute (state : State) (payload : Movie) (i : string) :
  id payload <> i ->
  exists state_a state_m state2,
    moviesReducer state (add_movie_action payload) = Ok state_a /\
    moviesReducer state (mark_watched_movie_action i) = Ok state_m /\
    moviesReducer state_a (mark_watched_movie_action i) = Ok state2 /\
    moviesReducer state_m (add_movie_action payload) = Ok state2.
Proof.
  intros Hne. eexists _, _, _.
  split; [apply MoviesFacts.moviesReducer_add|].
  split; [apply MoviesFacts.moviesReducer_mark|].
  split; [apply MoviesFacts.moviesReducer_mark|].
  rewrite MoviesFacts.moviesReducer_add. simpl.
  rewrite MoviesFacts.toggle_watched_other by assumption. reflexivity.
Qed.

Lemma add_mark_commute_witness :
  exists state_a state_m state2,
    moviesReducer initialState
      (add_movie_action {| id := "id-alien"; title := "Alien";
                           year := VStr "1979"; watched := false |}) = Ok state_a /\
    moviesReducer initialState (mark_watched_movie_action "id-inception") =
      Ok state_m /\
    moviesReducer state_a (mark_watched_movie_action "id-inception") = Ok state2 /\
    moviesReducer state_m
      (add_movie_action {| id := "id-alien"; title := "Alien";
                           year := VStr "1979"; watched := false |}) = Ok state2.
Proof.
  apply (add_mark_commute initialState
           {| id := "id-alien"; title := "Alien"; year := VStr "1979";
              watched := false |} "id-inception").
  simpl. discriminate.
Defined.

(** X9. [addMovie] does not check the id of the payload: after [addMovie]
    the ids of the list are pairwise distinct exactly when they were before
    and the id [uuidv4] returned is not one of them. *)
Theorem addMovie_ids_distinct_iff (G : Type) (uuidv4 : G -> string * G)
    (s : Store G) (form : MovieForm) :
  exists s1,
    addMovie G uuidv4 form s = Ok s1 /\
    (NoDup (ids (movies (Movies.state s1))) <->
     ((fst (uuidv4 (gen s)) ∉ ids (movies (Movies.state s))) /\
      NoDup (ids (movies (Movies.state s))))).
Proof.
  unfold addMovie. destruct (uuidv4 (gen s)) as [uuid g'].
  eexists. split; [reflexivity|]. simpl. apply NoDup_cons.
Qed.

(** X14. Adding a movie whose id no movie of the list carries and then
    marking that id gives the old list, unchanged, behind the new movie with
    its [watched] negated. *)
Theorem add_then_mark_fresh (state : State) (payload : Movie) :
  id payload ∉ ids (movies state) ->
  exists state1,
    moviesReducer state (add_movie_action payload) = Ok state1 /\
    moviesReducer state1 (mark_watched_movie_action (id payload)) =
      Ok {| movies :=
              {| id := id payload; title := title payload;
                 year := year payload; watched := negb (watched payload) |}
              :: movies state;
            other := other state |}.
Proof.
  intros Hfresh. eexists. split; [apply MoviesFacts.moviesReducer_add|].
  rewrite MoviesFacts.moviesReducer_mark. simpl.
  rewrite map_toggle_watched_absent by assumption.
  unfold toggle_watched. rewrite String.eqb_refl. reflexivity.
Qed.

Lemma add_then_mark_fresh_witness :
  exists state1,
    moviesReducer initialState
      (add_movie_action {| id := "id-alien"; title := "Alien";
                           year := VStr "1979"; watched := false |}) = Ok state1 /\
    moviesReducer state1 (mark_watched_movie_action "id-alien") =
      Ok {| movies :=
              {| id := "id-alien"; title := "Alien"; year := VStr "1979";
                 watched := true |} :: initialMovies;
            other := ∅ |}.
Proof.
  apply (add_then_mark_fresh initialState
           {| id := "id-alien"; title := "Alien"; year := VStr "1979";
              watched := false |}).
  apply (bool_decide_unpack _). reflexivity.
Defined.

End MoviesProps.

(** ** The earlier listing and the form: properties *)

Module ListingProps.

Import Movies.

Lemma earlier_reducer_default (state : State) (t : string)
    (p : MarkOnly.Payload t) :
  t <> MARK_WATCHED_MOVIE ->
  MarkOnly.moviesReducer state {| MarkOnly.type := t; MarkOnly.payload := p |} =
  Throw (Error ("Action is not supported: " +:+ t)).
Proof.
  intros Hne. revert p. unfold MarkOnly.Payload, MarkOnly.moviesReducer. simpl.
  destruct (String.eqb t MARK_WATCHED_MOVIE) eqn:Hm; simpl; intros p.
  - apply String.eqb_eq in Hm. contradiction.
  - reflexivity.
Qed.

(** X10. The reducer of the earlier listing returns a state only for a
    MARK_WATCHED_MOVIE action, and then the state the final reducer returns
    for the id of that action's payload; for every other type, ADD_MOVIE
    among them, it throws the error "Action is not supported: <type>". *)
Theorem earlier_reducer_agrees (state : State) (action : MarkOnly.Action) :
  match MarkOnly.moviesReducer state action with
  | Ok state1 =>
      exists i,
        action = MarkOnly.mark_watched_movie_action i /\
        moviesReducer state (mark_watched_movie_action i) = Ok state1
  | Throw e =>
      MarkOnly.type action <> MARK_WATCHED_MOVIE /\
      e = Error ("Action is not supported: " +:+ MarkOnly.type action)
  end.
Proof.
  destruct action as [t p].
  destruct (decide (t = MARK_WATCHED_MOVIE)) as [Heq|Hne].
  - subst t. destruct p as [i]. exists i. split; reflexivity.
  - rewrite earlier_reducer_default by assumption. simpl. auto.
Qed.

End ListingProps.

Module NewMovieProps.

Import Movies NewMovie MovieFields.

Lemma handle_all_app G uuidv4 es1 es2 page :
  handle_all G uuidv4 (es1 ++ es2)%list page =
  match handle_all G uuidv4 es1 page with
  | Ok page' => handle_all G uuidv4 es2 page'
  | Throw e => Throw e
  end.
Proof.
  revert page. induction es1 as [|e es1 IH]; intros page; simpl.
  - reflexivity.
  - destruct (handle G uuidv4 e page) as [page'|err]; [apply IH | reflexivity].
Qed.

Lemma handle_all_changes G uuidv4 (events : list ChangeEvent) form s :
  handle_all G uuidv4 (map Change events) (form, s) =
  Ok (fold_left (fun f e => handleChange e f) events form, s).
Proof.
  revert form. induction events as [|e events IH]; intros form; simpl.
  - reflexivity.
  - apply IH.
Qed.

(** X11. An edit of an input overwrites an earlier edit of the same input
    and commutes with an edit of the other input. *)
Theorem handleChange_overwrites_or_commutes (e1 e2 : ChangeEvent) (prev : MovieForm) :
  handleChange e2 (handleChange e1 prev) =
  if bool_decide (name (target e1) = name (target e2))
  then handleChange e2 prev
  else handleChange e1 (handleChange e2 prev).
Proof.
  destruct e1 as [[] v1], e2 as [[] v2]; reflexivity.
Qed.

(** X12. Edits followed by a submit, from any form: the store gets, at the
    head of the list, a movie with the title and the year the form held
    after the edits (both empty if the form was empty and nothing was
    typed: nothing is validated), [watched] false and the id [uuidv4]
    returned; and the form is empty again. *)
Theorem edits_then_submit (G : Type) (uuidv4 : G -> string * G)
    (events : list ChangeEvent) (form : MovieForm) (s : Store G) :
  let edited := fold_left (fun f e => handleChange e f) events form in
  exists s1,
    handle_all G uuidv4 (map Change events ++ [Submit])%list (form, s) =
      Ok (getInitialMovieForm, s1) /\
    movies (Movies.state s1) =
      {| id := fst (uuidv4 (gen s)); title := form_title edited;
         year := form_year edited; watched := false |}
      :: movies (Movies.state s).
Proof.
  cbv zeta. rewrite handle_all_app, handle_all_changes. simpl.
  unfold handleSubmit, addMovie. destruct (uuidv4 (gen s)) as [uuid g'].
  eexists. split; reflexivity.
Qed.

Lemma static_toggle_watched i movie : static (toggle_watched i movie) = static movie.
Proof. unfold toggle_watched. destruct (String.eqb (id movie) i); reflexivity. Qed.

Lemma is_text_handleChange event form :
  is_text (form_year form) -> is_text (form_year (handleChange event form)).
Proof.
  intros Hy. destruct event as [[] v]; simpl; [exact Hy | eexists; reflexivity].
Qed.

Lemma lookup_map {A B} (f : A -> B) (l : list A) (n : nat) :
  map f l !! n = f <$> (l !! n).
Proof.
  revert n. induction l as [|x l IH]; intros [|n]; simpl; auto.
Qed.

Lemma submits_cons e es :
  submits (e :: es) = if is_submit e then S (submits es) else submits es.
Proof. unfold submits. simpl. destruct (is_submit e); reflexivity. Qed.

Lemma handle_all_invariant G uuidv4 es : forall form (s : Store G),
  is_text (form_year form) ->
  exists form1 s1,
    handle_all G uuidv4 es (form, s) = Ok (form1, s1) /\
    length (movies (Movies.state s1)) =
      submits es + length (movies (Movies.state s)) /\
    drop (submits es) (map static (movies (Movies.state s1))) =
      map static (movies (Movies.state s)) /\
    Forall is_text (take (submits es) (map year (movies (Movies.state s1)))).
Proof.
  induction es as [|e es IH]; intros form s Hform.
  - exists form, s. repeat split. constructor.
  - rewrite submits_cons. destruct e as [event| |i]; cbn [is_submit handle_all handle].
    + (* an edit *)
      destruct (IH (handleChange event form) s (is_text_handleChange _ _ Hform))
        as (form1 & s1 & Hrun & Hlen & Hdrop & Htext).
      exists form1, s1. auto.
    + (* a submit *)
      unfold handleSubmit, addMovie.
      destruct (uuidv4 (gen s)) as [uuid g'] eqn:Huuid.
      destruct Hform as [text Htextform].
      cbn [dispatch moviesReducer Movies.state gen].
      set (s0 := {| Movies.state :=
                      {| movies :=
                           {| id := uuid; title := form_title form;
                              year := form_year form; watched := false |}
                           :: movies (Movies.state s);
                         other := other (Movies.state s) |};
                    gen := g' |}).
      destruct (IH getInitialMovieForm s0)
        as (form1 & s1 & Hrun & Hlen & Hdrop & Htext).
      { eexists; reflexivity. }
      exists form1, s1. split; [exact Hrun|].
      subst s0. cbn [movies Movies.state length map] in Hlen, Hdrop.
      split; [lia|]. split.
      * replace (S (submits es)) with (submits es + 1) by lia.
        rewrite <- drop_drop, Hdrop. reflexivity.
      * assert (Hat : map year (movies (Movies.state s1)) !! submits es
                      = Some (form_year form)).
        { assert (Hs : map static (movies (Movies.state s1)) !! (submits es + 0)
                       = Some (uuid, form_title form, form_year form)).
          { rewrite <- lookup_drop, Hdrop. reflexivity. }
          rewrite Nat.add_0_r in Hs.
          rewrite lookup_map in Hs. rewrite lookup_map.
          destruct (movies (Movies.state s1) !! submits es) as [m|]; [|discriminate].
          simpl in *. unfold static in Hs. congruence. }
        rewrite (take_S_r _ _ _ Hat). apply Forall_app. split; [exact Htext|].
        constructor; [|constructor]. exists text. exact Htextform.
    + (* a tick of a checkbox *)
      unfold markWatchedMovie.
      cbn [dispatch moviesReducer Movies.state gen].
      set (s0 := {| Movies.state :=
                      {| movies := map (toggle_watched i) (movies (Movies.state s));
                         other := other (Movies.state s) |};
                    gen := gen s |}).
      destruct (IH form s0 Hform)
        as (form1 & s1 & Hrun & Hlen & Hdrop & Htext).
      exists form1, s1. split; [exact Hrun|].
      subst s0. cbn [movies Movies.state] in Hlen, Hdrop.
      rewrite length_map in Hlen.
      split; [exact Hlen|]. split; [|exact Htext].
      rewrite Hdrop, map_map. apply map_ext. intros movie.
      apply static_toggle_watched.
Qed.

(** X13. Whatever a user does to the page (edits, submits, ticks), from the
    empty form and any store: no handler throws; the list has grown by one
    movie per submit; the movies it had are all still there, behind the new
    ones, in their order and with their id, title and year; and every movie
    that was added carries its year as text. *)
Theorem page_events_invariant (G : Type) (uuidv4 : G -> string * G)
    (es : list UserEvent) (s : Store G) :
  exists form1 s1,
    handle_all G uuidv4 es (getInitialMovieForm, s) = Ok (form1, s1) /\
    length (movies (Movies.state s1)) =
      submits es + length (movies (Movies.state s)) /\
    drop (submits es) (map static (movies (Movies.state s1))) =
      map static (movies (Movies.state s)) /\
    Forall is_text (take (submits es) (map year (movies (Movies.state s1)))).
Proof.
  apply handle_all_invariant. exists "". reflexivity.
Qed.

End NewMovieProps.
